(** * picasso: the project-scoped apps controller

    A shallow embedding of [picasso/api/controllers/apps.py]
    ([AppV1Controller]) and a verification of its lifecycle contract:
    existence checks, the mapping of remote failures to HTTP statuses,
    the name derivation, and the order of the calls the handlers issue
    to the local registry and to the remote functions platform.

    The handlers are [async] functions that await their collaborators one
    after the other; they are modelled in a state-and-exception monad over
    a world made of the local registry, the remote platform and the log of
    the calls issued so far. Logging ([log.info], [log.debug]) touches
    neither store nor the response and is left out.

    Every method is bound to its route through the decorator
    [@requests.api_action] of the aioservice library. The decorator's code
    is not the controller's: it is taken as a parameter
    ([requests.ApiAction]). [AppV1Controller] holds the method bodies as
    they are written, [AppV1Actions] the methods as the decorator binds
    them. *)

From Stdlib Require Import String Ascii List ZArith Bool Lia.
Import ListNotations.
Local Open Scope string_scope.
Local Open Scope list_scope.
Local Open Scope Z_scope.

(** ** Python strings

    A Python [str] is a sequence of characters; it is modelled by [string],
    one [ascii] per character, so that lengths count characters. *)
Module PyStr.

  (** [s[:n]] *)
Fixpoint slice_to (n : nat) (s : string) : string :=
    match n, s with
    | S n', String c s' => String c (slice_to n' s')
    | _, _ => EmptyString
    end.

  (** ["{}-{}".format(a, b)] *)
Definition format_dash (a b : string) : string :=
    (a ++ "-" ++ b)%string.

Definition chars (s : string) : list ascii := list_ascii_of_string s.

End PyStr.

(** ** Exceptions

    What the handlers observe of an exception object: [str(ex)] and the
    optional attributes [status] and [reason] read through [getattr]. *)
Record Exn : Type := mkExn {
  ex_str : string;
  ex_status : option Z;
  ex_reason : option string
}.

(** [getattr(ex, "reason", str(ex))] *)
Definition getattr_reason (ex : Exn) : string :=
  match ex_reason ex with
  | Some r => r
  | None => ex_str ex
  end.

(** [getattr(ex, "status", 500)] *)
Definition getattr_status (ex : Exn) : Z :=
  match ex_status ex with
  | Some s => s
  | None => 500
  end.

(** Raised by [list.pop()] on an empty list. *)
Definition IndexError : Exn :=
  mkExn "pop from empty list" None None.

(** [l.pop()]: the last item of the list and the list without it. *)
Fixpoint py_pop {A : Type} (l : list A) : option (A * list A) :=
  match l with
  | [] => None
  | [x] => Some (x, [])
  | x :: l' =>
      match py_pop l' with
      | Some (y, r) => Some (y, x :: r)
      | None => None
      end
  end.

(** ** The local registry ([picasso.models.app]) *)
Module app_model.

  (** An [Apps] record: [Apps(name=..., project_id=..., description=...)]. *)
Record Apps : Type := mkApps {
    name : string;
    project_id : string;
    description : string
  }.

Definition matches (pid : string) (nm : option string) (a : Apps) : bool :=
    String.eqb (project_id a) pid &&
    match nm with
    | Some n => String.eqb (name a) n
    | None => true
    end.

  (** Modelled from the spec: the bodies of the model's class methods are
      not part of the controller's file. The registry is the sequence of
      the stored records; [find_by(project_id[, name])] returns the
      matching records in the registry's order. *)
Definition find_by (reg : list Apps) (pid : string) (nm : option string)
    : list Apps :=
    filter (matches pid nm) reg.

  (** Modelled from the spec: [exists(name, project_id) -> bool], true when
      a record with this name and project is stored. *)
Definition exists_ (reg : list Apps) (nm pid : string) : bool :=
    existsb (matches pid (Some nm)) reg.

  (** Modelled from the spec: [save(App) -> App] stores the record and
      returns it. *)
Definition save (reg : list Apps) (a : Apps) : list Apps * Apps :=
    (reg ++ [a], a).

  (** Modelled from the spec: [delete(project_id, name) -> void] removes
      the records with this project and name. *)
Definition delete (reg : list Apps) (pid nm : string) : list Apps :=
    filter (fun a => negb (matches pid (Some nm) a)) reg.

End app_model.

(** ** The remote functions platform (the [functions_client]) *)
Module fn.

  (** A remote function app, as the client returns it. *)
Record App : Type := mkApp {
    name : string;
    config : list (string * string)
  }.

Definition Route : Type := string.

  (** The keyword arguments of [apps.update]: the request body. *)
Definition Params : Type := list (string * string).

  (** The client's interface over a platform state [R]. A call either
      raises or returns; [apps.show] and [routes.list] are fetches and
      leave the platform as it is, the other three may change it. *)
Class Client (R : Type) : Type := {
    apps_show : string -> R -> Exn + App;
    apps_create : string -> R -> (Exn + App) * R;
    apps_update : string -> Params -> R -> (Exn + App) * R;
    apps_delete : string -> R -> (Exn + unit) * R;
    routes_list : App -> R -> Exn + list Route
  }.

End fn.

(** ** The response view ([picasso.api.views.app]) *)
Module app_view.

  (** [AppView(api_app, fn_app)] *)
Record AppView : Type := mkAppView {
    app : app_model.Apps;
    fn_app : fn.App
  }.

Record View : Type := mkView {
    view_name : string;
    view_project_id : string;
    view_description : string;
    view_remote : fn.App
  }.

  (** Modelled from the spec: the body of [AppView.view] is not part of
      the controller's file; the view merges the local fields of the
      record with the remote app. *)
Definition view (v : AppView) : View :=
    {| view_name := app_model.name (app v);
       view_project_id := app_model.project_id (app v);
       view_description := app_model.description (app v);
       view_remote := fn_app v |}.

End app_view.

(** ** Requests and responses *)

(** The body of a create request: [{"app": {"name": ..., "description": ...}}],
    where ["description"] may be absent. *)
Record CreateData : Type := mkCreateData {
  data_app_name : string;
  data_app_description : option string
}.

(** The [data] argument of [web.json_response], one constructor per shape
    the controller builds. *)
Inductive JsonData : Type :=
| apps_message (apps : list app_view.View) (message : string)
| app_message (app : app_view.View) (message : string)
| message_only (message : string)
| error_message (message : string).

(** [web.json_response(data=..., status=...)] *)
Record Response : Type := json_response {
  data : JsonData;
  status : Z
}.

(** ** The world and the calls issued to the collaborators *)

Inductive Call : Type :=
| Apps_exists_call (name project_id : string)
| Apps_find_by_call (project_id : string) (name : option string)
| Apps_save_call (a : app_model.Apps)
| Apps_delete_call (project_id name : string)
| fn_apps_show_call (name : string)
| fn_apps_create_call (name : string)
| fn_apps_update_call (name : string) (params : fn.Params)
| fn_apps_delete_call (name : string)
| fn_routes_list_call (fn_app : fn.App).

(** The calls that go to the remote platform. *)
Definition is_remote (c : Call) : bool :=
  match c with
  | fn_apps_show_call _ | fn_apps_create_call _ | fn_apps_update_call _ _
  | fn_apps_delete_call _ | fn_routes_list_call _ => true
  | _ => false
  end.

(** The calls that write to one of the two stores. *)
Definition is_write (c : Call) : bool :=
  match c with
  | Apps_save_call _ | Apps_delete_call _ _
  | fn_apps_create_call _ | fn_apps_update_call _ _
  | fn_apps_delete_call _ => true
  | _ => false
  end.

(** The calls that write to the local registry. *)
Definition is_registry_write (c : Call) : bool :=
  match c with
  | Apps_save_call _ | Apps_delete_call _ _ => true
  | _ => false
  end.

Record World (R : Type) : Type := mkWorld {
  registry : list app_model.Apps;
  remote : R;
  calls : list Call
}.
Arguments mkWorld {R} _ _ _.
Arguments registry {R} _.
Arguments remote {R} _.
Arguments calls {R} _.

(** How an awaited call or a handler ends. *)
Inductive Outcome (A : Type) : Type :=
| Returned (a : A)
| Raised (ex : Exn).
Arguments Returned {A} _.
Arguments Raised {A} _.

Definition of_sum {A : Type} (r : Exn + A) : Outcome A :=
  match r with
  | inl ex => Raised ex
  | inr a => Returned a
  end.

(** ** The monad of the handlers *)
Section Monad.
Context {R : Type}.

Definition Action (A : Type) : Type := World R -> Outcome A * World R.

Definition ret {A : Type} (a : A) : Action A :=
    fun w => (Returned a, w).

Definition raise {A : Type} (ex : Exn) : Action A :=
    fun w => (Raised ex, w).

Definition bind {A B : Type} (m : Action A) (k : A -> Action B) : Action B :=
    fun w =>
      match m w with
      | (Returned a, w') => k a w'
      | (Raised ex, w') => (Raised ex, w')
      end.

  (** [try: m except Exception as ex: h ex] *)
Definition try_except {A : Type} (m : Action A) (h : Exn -> Action A)
    : Action A :=
    fun w =>
      match m w with
      | (Returned a, w') => (Returned a, w')
      | (Raised ex, w') => h ex w'
      end.

Definition issue (c : Call) : Action unit :=
    fun w => (Returned tt, mkWorld (registry w) (remote w) (calls w ++ [c])).

End Monad.

Declare Scope action_scope.
Delimit Scope action_scope with action.
Notation "x <- m ;; k" := (bind m (fun x => k))
  (at level 100, m at next level, right associativity) : action_scope.
Notation "m ;; k" := (bind m (fun _ => k))
  (at level 100, right associativity) : action_scope.
Local Open Scope action_scope.

(** ** The awaited calls *)
Section Calls.
Context {R : Type} {fnclient : fn.Client R}.

  (** [await app_model.Apps.exists(name, project_id)] *)
Definition Apps_exists (name project_id : string) : Action (R := R) bool :=
    issue (Apps_exists_call name project_id) ;;
    fun w => (Returned (app_model.exists_ (registry w) name project_id), w).

  (** [await app_model.Apps.find_by(project_id=..., name=...)] *)
Definition Apps_find_by (project_id : string) (name : option string)
    : Action (R := R) (list app_model.Apps) :=
    issue (Apps_find_by_call project_id name) ;;
    fun w => (Returned (app_model.find_by (registry w) project_id name), w).

  (** [await app_model.Apps(...).save()] *)
Definition Apps_save (a : app_model.Apps) : Action (R := R) app_model.Apps :=
    issue (Apps_save_call a) ;;
    fun w =>
      let (reg, stored) := app_model.save (registry w) a in
      (Returned stored, mkWorld reg (remote w) (calls w)).

  (** [await app_model.Apps.delete(project_id=..., name=...)] *)
Definition Apps_delete (project_id name : string) : Action (R := R) unit :=
    issue (Apps_delete_call project_id name) ;;
    fun w =>
      (Returned tt,
       mkWorld (app_model.delete (registry w) project_id name)
               (remote w) (calls w)).

  (** [await fnclient.apps.show(name, loop=...)] *)
Definition fn_apps_show (name : string) : Action (R := R) fn.App :=
    issue (fn_apps_show_call name) ;;
    fun w => (of_sum (fn.apps_show name (remote w)), w).

  (** [await fnclient.apps.create(name, loop=...)] *)
Definition fn_apps_create (name : string) : Action (R := R) fn.App :=
    issue (fn_apps_create_call name) ;;
    fun w =>
      let (r, rm) := fn.apps_create name (remote w) in
      (of_sum r, mkWorld (registry w) rm (calls w)).

  (** [await fnclient.apps.update(name, loop=..., **data)] *)
Definition fn_apps_update (name : string) (params : fn.Params)
    : Action (R := R) fn.App :=
    issue (fn_apps_update_call name params) ;;
    fun w =>
      let (r, rm) := fn.apps_update name params (remote w) in
      (of_sum r, mkWorld (registry w) rm (calls w)).

  (** [await fnclient.apps.delete(name, loop=...)] *)
Definition fn_apps_delete (name : string) : Action (R := R) unit :=
    issue (fn_apps_delete_call name) ;;
    fun w =>
      let (r, rm) := fn.apps_delete name (remote w) in
      (of_sum r, mkWorld (registry w) rm (calls w)).

  (** [await fn_app.routes.list(loop=...)] *)
Definition fn_routes_list (fn_app : fn.App)
    : Action (R := R) (list fn.Route) :=
    issue (fn_routes_list_call fn_app) ;;
    fun w => (of_sum (fn.routes_list fn_app (remote w)), w).

  (** [l.pop()] as an expression: the popped item, or [IndexError]. *)
Definition pop {A : Type} (l : list A) : Action (R := R) A :=
    match py_pop l with
    | Some (x, _) => ret x
    | None => raise IndexError
    end.

End Calls.

(** ** The route decorator ([aioservice.http.requests]) *)
Module requests.

(** [@requests.api_action(method=..., route=...)]: what the decorator
    makes of a method body. *)
Class ApiAction (R : Type) : Type := {
  api_action :
    string -> string -> Action (R := R) Response -> Action (R := R) Response
}.

(** A decorator that registers the route and leaves the method as it is. *)
Definition registers_only {R : Type} (decorator : ApiAction R) : Prop :=
  forall (method route : string) (handler : Action (R := R) Response)
         (w : World R),
    api_action method route handler w = handler w.

(** A decorator that awaits the method, hands its response on, and
    answers [on_error ex] itself when the exception [ex] leaves it. *)
Definition answers_errors {R : Type} (decorator : ApiAction R)
    (on_error : Exn -> Response) : Prop :=
  forall (method route : string) (handler : Action (R := R) Response)
         (w : World R),
    api_action method route handler w =
      match handler w with
      | (Returned resp, w') => (Returned resp, w')
      | (Raised ex, w') => (Returned (on_error ex), w')
      end.

End requests.

(** ** The controller: the bodies of its methods *)
Module AppV1Controller.
Section Handlers.
Context {R : Type} {fnclient : fn.Client R}.

Definition controller_name : string := "apps".

  (** The error response of the [except Exception as ex] branches. *)
Definition remote_error (ex : Exn) : Response :=
    json_response (error_message (getattr_reason ex)) (getattr_status ex).

  (** The 404 response of the existence checks. *)
Definition not_found (app : string) : Response :=
    json_response (error_message ("App " ++ app ++ " not found")%string) 404.

  (** The local [app_name] of [create]:
      ["{}-{}".format(data["app"]["name"], project_id)[:30]]. *)
Definition create_app_name (project_id : string) (data : CreateData)
    : string :=
    PyStr.slice_to 30 (PyStr.format_dash (data_app_name data) project_id).

  (** [data["app"].get("description", "App for project {}".format(project_id))] *)
Definition create_description (project_id : string) (data : CreateData)
    : string :=
    match data_app_description data with
    | Some d => d
    | None => ("App for project " ++ project_id)%string
    end.

Definition create (project_id : string) (data : CreateData)
    : Action (R := R) Response :=
    let app_name := create_app_name project_id data in
    found <- Apps_exists app_name project_id ;;
    if found : bool then
      ret (json_response
             (error_message ("App " ++ app_name ++ " already exists")%string)
             409)
    else
      fn_app <- fn_apps_create app_name ;;
      stored_app <- Apps_save
        (app_model.mkApps app_name project_id
           (create_description project_id data)) ;;
      ret (json_response
             (app_message
                (app_view.view (app_view.mkAppView stored_app fn_app))
                "App successfully created")
             200).

Definition get (project_id app : string) : Action (R := R) Response :=
    found <- Apps_exists app project_id ;;
    if negb found then ret (not_found app)
    else
      found_apps <- Apps_find_by project_id (Some app) ;;
      stored_app <- pop found_apps ;;
      r <- try_except
             (fn_app <- fn_apps_show app ;; ret (inr fn_app))
             (fun ex => ret (inl (remote_error ex))) ;;
      match r with
      | inl early => ret early
      | inr fn_app =>
          ret (json_response
                 (app_message
                    (app_view.view (app_view.mkAppView stored_app fn_app))
                    "Successfully loaded app")
                 200)
      end.

Definition update (project_id app_name : string) (data : fn.Params)
    : Action (R := R) Response :=
    found <- Apps_exists app_name project_id ;;
    if negb found then ret (not_found app_name)
    else
      r <- try_except
             (fn_app <- fn_apps_update app_name data ;; ret (inr fn_app))
             (fun ex => ret (inl (remote_error ex))) ;;
      match r with
      | inl early => ret early
      | inr fn_app =>
          found_apps <- Apps_find_by project_id (Some app_name) ;;
          stored_app <- pop found_apps ;;
          ret (json_response
                 (app_message
                    (app_view.view (app_view.mkAppView stored_app fn_app))
                    "App successfully updated")
                 200)
      end.

Definition delete (project_id app : string) : Action (R := R) Response :=
    found <- Apps_exists app project_id ;;
    if negb found then ret (not_found app)
    else
      r <- try_except
             (fn_app <- fn_apps_show app ;;
              fn_app_routes <- fn_routes_list fn_app ;;
              ret (inr fn_app_routes))
             (fun ex => ret (inl (remote_error ex))) ;;
      match r with
      | inl early => ret early
      | inr fn_app_routes =>
          match fn_app_routes with
          | _ :: _ =>
              ret (json_response
                     (error_message
                        ("Unable to delete app " ++ app ++ " with routes")%string)
                     403)
          | [] =>
              Apps_delete project_id app ;;
              fn_apps_delete app ;;
              ret (json_response
                     (message_only "App successfully deleted") 200)
          end
      end.

  (** The [for app in stored_apps] loop of [list], [final] being the list
      under construction. *)
Fixpoint list_loop (stored_apps : Datatypes.list app_model.Apps)
      (final : Datatypes.list app_view.View)
    : Action (R := R) (Datatypes.list app_view.View) :=
    match stored_apps with
    | [] => ret final
    | app :: rest =>
        fn_app <- fn_apps_show (app_model.name app) ;;
        list_loop rest
          (final ++ [app_view.view (app_view.mkAppView app fn_app)])
    end.

Definition list (project_id : string) : Action (R := R) Response :=
    stored_apps <- Apps_find_by project_id None ;;
    final <- list_loop stored_apps [] ;;
    ret (json_response
           (apps_message final "Successfully listed applications") 200).

End Handlers.
End AppV1Controller.

(** ** The controller's methods, as [@requests.api_action] binds them *)
Module AppV1Actions.
Section Bound.
Context {R : Type} {fnclient : fn.Client R} {decorator : requests.ApiAction R}.

Definition create (project_id : string) (data : CreateData)
    : Action (R := R) Response :=
  requests.api_action "POST" "{project_id}/apps"
    (AppV1Controller.create project_id data).

Definition get (project_id app : string) : Action (R := R) Response :=
  requests.api_action "GET" "{project_id}/apps/{app}"
    (AppV1Controller.get project_id app).

Definition update (project_id app_name : string) (data : fn.Params)
    : Action (R := R) Response :=
  requests.api_action "PUT" "{project_id}/apps/{app}"
    (AppV1Controller.update project_id app_name data).

Definition delete (project_id app : string) : Action (R := R) Response :=
  requests.api_action "DELETE" "{project_id}/apps/{app}"
    (AppV1Controller.delete project_id app).

Definition list (project_id : string) : Action (R := R) Response :=
  requests.api_action "GET" "{project_id}/apps"
    (AppV1Controller.list project_id).

End Bound.
End AppV1Actions.

(** ** A platform to run the handlers on

    An in-memory functions platform: the apps it hosts with their routes,
    and whether it can be reached at all. *)
Module MemPlatform.

Record State : Type := mkState {
    reachable : bool;
    hosted : list (fn.App * list fn.Route)
  }.

Definition ConnectionError : Exn :=
    mkExn "Cannot connect to host" None None.

Definition NotFound (name : string) : Exn :=
    mkExn "FnError" (Some 404) (Some ("App " ++ name ++ " not found")%string).

Definition Conflict (name : string) : Exn :=
    mkExn "FnError" (Some 409) (Some ("App " ++ name ++ " already exists")%string).

Definition lookup (name : string) (s : State)
    : option (fn.App * list fn.Route) :=
    find (fun e => String.eqb (fn.name (fst e)) name) (hosted s).

Definition without (name : string) (s : State)
    : list (fn.App * list fn.Route) :=
    filter (fun e => negb (String.eqb (fn.name (fst e)) name)) (hosted s).

Definition show (name : string) (s : State) : Exn + fn.App :=
    if reachable s then
      match lookup name s with
      | Some e => inr (fst e)
      | None => inl (NotFound name)
      end
    else inl ConnectionError.

Definition create (name : string) (s : State) : (Exn + fn.App) * State :=
    if reachable s then
      match lookup name s with
      | Some _ => (inl (Conflict name), s)
      | None =>
          let a := fn.mkApp name [] in
          (inr a, mkState true (hosted s ++ [(a, [])]))
      end
    else (inl ConnectionError, s).

Definition update (name : string) (params : fn.Params) (s : State)
    : (Exn + fn.App) * State :=
    if reachable s then
      match lookup name s with
      | Some e =>
          let a := fn.mkApp name params in
          (inr a, mkState true (without name s ++ [(a, snd e)]))
      | None => (inl (NotFound name), s)
      end
    else (inl ConnectionError, s).

Definition delete (name : string) (s : State) : (Exn + unit) * State :=
    if reachable s then
      match lookup name s with
      | Some _ => (inr tt, mkState true (without name s))
      | None => (inl (NotFound name), s)
      end
    else (inl ConnectionError, s).

Definition routes (a : fn.App) (s : State) : Exn + list fn.Route :=
    if reachable s then
      match lookup (fn.name a) s with
      | Some e => inr (snd e)
      | None => inl (NotFound (fn.name a))
      end
    else inl ConnectionError.

#[global] Instance client : fn.Client State := {
    fn.apps_show := show;
    fn.apps_create := create;
    fn.apps_update := update;
    fn.apps_delete := delete;
    fn.routes_list := routes
  }.

End MemPlatform.

(** ** Worlds the handlers are run on *)
Module Scenario.

Definition billing : app_model.Apps :=
  app_model.mkApps "billing-p1" "p1" "App for project p1".

Definition fn_billing : fn.App := fn.mkApp "billing-p1" [].

(** Nothing stored on either side. *)
Definition w_empty : World MemPlatform.State :=
  mkWorld [] (MemPlatform.mkState true []) [].

(** One app, stored on both sides, without routes. *)
Definition w_billing : World MemPlatform.State :=
  mkWorld [billing] (MemPlatform.mkState true [(fn_billing, [])]) [].

(** One app, stored on both sides, with two routes. *)
Definition w_routes : World MemPlatform.State :=
  mkWorld [billing]
    (MemPlatform.mkState true [(fn_billing, ["/invoices"; "/refunds"])]) [].

(** The registry holds an app the platform does not host. *)
Definition w_orphan : World MemPlatform.State :=
  mkWorld [billing] (MemPlatform.mkState true []) [].

(** The platform cannot be reached. *)
Definition w_down : World MemPlatform.State :=
  mkWorld [billing] (MemPlatform.mkState false [(fn_billing, [])]) [].

(** Two records under the same project and name, as two racing creates
    leave them. *)
Definition older : app_model.Apps :=
  app_model.mkApps "billing-p1" "p1" "first writer".

Definition newer : app_model.Apps :=
  app_model.mkApps "billing-p1" "p1" "second writer".

Definition w_dup : World MemPlatform.State :=
  mkWorld [older; newer] (MemPlatform.mkState true [(fn_billing, [])]) [].

(** A project with two apps, the second of which the platform has lost. *)
Definition reports : app_model.Apps :=
  app_model.mkApps "reports-p1" "p1" "App for project p1".

Definition w_partial : World MemPlatform.State :=
  mkWorld [billing; reports] (MemPlatform.mkState true [(fn_billing, [])]) [].

(** A project with two apps, both hosted. *)
Definition fn_reports : fn.App := fn.mkApp "reports-p1" [].

Definition w_two : World MemPlatform.State :=
  mkWorld [billing; reports]
    (MemPlatform.mkState true [(fn_billing, []); (fn_reports, ["/daily"])])
    [].

(** Two requested names that differ only after their 30th character. *)
Definition long_one : CreateData :=
  mkCreateData "a-very-long-application-name-v1" None.

Definition long_two : CreateData :=
  mkCreateData "a-very-long-application-name-v2" (Some "the second").

(** A client whose [routes.list] fails while its [apps.show] works. *)
Definition routes_down : fn.Client MemPlatform.State :=
  {| fn.apps_show := MemPlatform.show;
     fn.apps_create := MemPlatform.create;
     fn.apps_update := MemPlatform.update;
     fn.apps_delete := MemPlatform.delete;
     fn.routes_list := fun _ _ => inl MemPlatform.ConnectionError |}.

(** A client that shows the apps it hosts and rejects every update. *)
Definition BadConfig : Exn := mkExn "FnError" (Some 400) (Some "bad config").

Definition update_rejects : fn.Client MemPlatform.State :=
  {| fn.apps_show := MemPlatform.show;
     fn.apps_create := MemPlatform.create;
     fn.apps_update := fun _ _ s => (inl BadConfig, s);
     fn.apps_delete := MemPlatform.delete;
     fn.routes_list := MemPlatform.routes |}.

(** Two decorators to run the bound methods with: one that only
    registers the route, one that answers for the exceptions that leave
    the method, with their status and reason. *)
Definition registering : requests.ApiAction MemPlatform.State :=
  {| requests.api_action := fun _ _ handler => handler |}.

Definition answer_for (ex : Exn) : Response :=
  json_response (error_message (getattr_reason ex)) (getattr_status ex).

Definition answering : requests.ApiAction MemPlatform.State :=
  {| requests.api_action := fun _ _ handler w =>
       match handler w with
       | (Returned resp, w') => (Returned resp, w')
       | (Raised ex, w') => (Returned (answer_for ex), w')
       end |}.

End Scenario.

(** The status of the response a handler returned, if it returned one. *)
Definition returned_status {R : Type}
    (r : Outcome Response * World R) : option Z :=
  match fst r with
  | Returned resp => Some (status resp)
  | Raised _ => None
  end.

(** The reading of [get] under which the record shown is the first one
    of the sequence the registry lookup returns. *)
Definition get_takes_first {R : Type} {fnclient : fn.Client R}
    (w : World R) (project_id app : string) : Prop :=
  forall first rest fn_app,
    app_model.find_by (registry w) project_id (Some app) = first :: rest ->
    fn.apps_show app (remote w) = inr fn_app ->
    fst (AppV1Controller.get project_id app w) =
      Returned (json_response
                  (app_message
                     (app_view.view (app_view.mkAppView first fn_app))
                     "Successfully loaded app")
                  200).

(** * Verification *)

(** ** Strings and lists *)

Lemma slice_to_chars (n : nat) (s : string) :
  PyStr.chars (PyStr.slice_to n s) = firstn n (PyStr.chars s).
Proof.
  revert s; induction n as [|n IH]; intros [|c s]; simpl; try reflexivity.
  f_equal. apply IH.
Qed.


Lemma slice_to_short (n : nat) (s : string) :
  (String.length s <= n)%nat -> PyStr.slice_to n s = s.
Proof.
  revert s; induction n as [|n IH]; intros [|c s]; simpl; intros H;
    try reflexivity; try lia.
  f_equal. apply IH. lia.
Qed.

Lemma py_pop_snoc {A : Type} (init : list A) (x : A) :
  py_pop (init ++ [x]) = Some (x, init).
Proof.
  induction init as [|y init IH]; simpl; [reflexivity|].
  rewrite IH. destruct (init ++ [x]) eqn:E; [|reflexivity].
  destruct init; discriminate.
Qed.

Lemma snoc_cases {A : Type} (l : list A) :
  l = [] \/ exists init x, l = init ++ [x].
Proof.
  destruct l as [|a l]; [left; reflexivity|right].
  destruct (exists_last (l := a :: l)) as [init [x E]]; [discriminate|].
  exists init, x. exact E.
Qed.

(** ** The registry *)

Lemma exists_find_by (reg : list app_model.Apps) (nm pid : string) :
  app_model.exists_ reg nm pid = true ->
  exists init stored,
    app_model.find_by reg pid (Some nm) = init ++ [stored].
Proof.
  unfold app_model.exists_, app_model.find_by. intros H.
  destruct (snoc_cases (filter (app_model.matches pid (Some nm)) reg))
    as [E | [init [x E]]].
  - apply existsb_exists in H. destruct H as [a [Ha Hm]].
    assert (Hin : In a (filter (app_model.matches pid (Some nm)) reg))
      by (apply filter_In; split; assumption).
    rewrite E in Hin. destruct Hin.
  - exists init, x. exact E.
Qed.

Lemma not_exists_find_by (reg : list app_model.Apps) (nm pid : string) :
  app_model.exists_ reg nm pid = false ->
  app_model.find_by reg pid (Some nm) = [].
Proof.
  unfold app_model.exists_, app_model.find_by.
  induction reg as [|a reg IH]; simpl; [reflexivity|].
  intros H. apply orb_false_iff in H. destruct H as [Ha Hr].
  rewrite Ha. apply IH. exact Hr.
Qed.

Lemma find_by_saved (reg : list app_model.Apps) (nm pid descr : string) :
  app_model.exists_ reg nm pid = false ->
  app_model.find_by (reg ++ [app_model.mkApps nm pid descr]) pid (Some nm)
  = [app_model.mkApps nm pid descr].
Proof.
  intros H. unfold app_model.find_by. rewrite filter_app.
  fold (app_model.find_by reg pid (Some nm)).
  rewrite (not_exists_find_by _ _ _ H). simpl.
  unfold app_model.matches. simpl. rewrite !String.eqb_refl. reflexivity.
Qed.

Lemma exists_saved (reg : list app_model.Apps) (nm pid descr : string) :
  app_model.exists_ (reg ++ [app_model.mkApps nm pid descr]) nm pid = true.
Proof.
  unfold app_model.exists_. rewrite existsb_app. simpl.
  unfold app_model.matches. simpl. rewrite !String.eqb_refl.
  apply orb_true_r.
Qed.

Lemma filter_snoc_skip {A : Type} (f : A -> bool) (l new : list A) :
  forallb (fun c => negb (f c)) new = true ->
  filter f (l ++ new) = filter f l.
Proof.
  intros H. rewrite filter_app.
  assert (E : filter f new = []).
  { induction new as [|c new IH]; simpl in *; [reflexivity|].
    apply andb_true_iff in H. destruct H as [Hc Hn].
    apply negb_true_iff in Hc. rewrite Hc. apply IH. exact Hn. }
  rewrite E. apply app_nil_r.
Qed.

(** ** The handlers *)

Import AppV1Controller.

(** Reduces the projections and matches a resolved call leaves behind. *)
Ltac step := cbn [registry remote calls fst snd of_sum negb].

(** Unfolds a handler down to the calls it issues. *)
Ltac run_handler :=
  unfold create, get, update, delete, AppV1Controller.list, not_found,
    remote_error, pop;
  unfold Apps_exists, Apps_find_by, Apps_save, Apps_delete,
    fn_apps_show, fn_apps_create, fn_apps_update, fn_apps_delete,
    fn_routes_list, app_model.save;
  unfold try_except, bind, ret, raise, issue;
  step.

Section Contract.
Context {R : Type} {fnclient : fn.Client R}.

(** C1. When the derived name ["{name}-{project_id}"[:30]] is already in
    the registry for the project, [create] answers 409 with the message
    "App ... already exists"; the only call it issues is the existence
    check, so the remote creation is not invoked, and both stores are
    left as they were. *)
Theorem create_conflict (w : World R) (project_id : string)
    (data : CreateData) :
  let app_name := create_app_name project_id data in
  app_model.exists_ (registry w) app_name project_id = true ->
  create project_id data w =
    (Returned
       (json_response
          (error_message ("App " ++ app_name ++ " already exists")%string)
          409),
     mkWorld (registry w) (remote w)
       (calls w ++ [Apps_exists_call app_name project_id]))
  /\ filter is_remote (calls (snd (create project_id data w)))
     = filter is_remote (calls w).
Proof.
  intros app_name H.
  assert (E : create project_id data w =
    (Returned
       (json_response
          (error_message ("App " ++ app_name ++ " already exists")%string)
          409),
     mkWorld (registry w) (remote w)
       (calls w ++ [Apps_exists_call app_name project_id]))).
  { run_handler. fold app_name. rewrite H. reflexivity. }
  split; [exact E|].
  rewrite E. cbn [snd calls]. apply filter_snoc_skip. reflexivity.
Qed.

(** C2. When the local record exists and the remote app has at least one
    route, [delete] answers 403; it has issued the existence check and
    the two fetches only, and the registry and the platform are exactly
    as before. *)
Theorem delete_with_routes_forbidden (w : World R) (project_id app : string)
    (fn_app : fn.App) (route : fn.Route) (routes : Datatypes.list fn.Route) :
  app_model.exists_ (registry w) app project_id = true ->
  fn.apps_show app (remote w) = inr fn_app ->
  fn.routes_list fn_app (remote w) = inr (route :: routes) ->
  delete project_id app w =
    (Returned
       (json_response
          (error_message
             ("Unable to delete app " ++ app ++ " with routes")%string)
          403),
     mkWorld (registry w) (remote w)
       (calls w ++ [Apps_exists_call app project_id;
                    fn_apps_show_call app;
                    fn_routes_list_call fn_app]))
  /\ filter is_write (calls (snd (delete project_id app w)))
     = filter is_write (calls w).
Proof.
  intros Hex Hshow Hroutes.
  assert (E : delete project_id app w =
    (Returned
       (json_response
          (error_message
             ("Unable to delete app " ++ app ++ " with routes")%string)
          403),
     mkWorld (registry w) (remote w)
       (calls w ++ [Apps_exists_call app project_id;
                    fn_apps_show_call app;
                    fn_routes_list_call fn_app]))).
  { run_handler. rewrite Hex. step. rewrite Hshow. step.
    rewrite Hroutes. step. rewrite <- !app_assoc. reflexivity. }
  split; [exact E|].
  rewrite E. cbn [snd calls]. apply filter_snoc_skip. reflexivity.
Qed.



(** C5. When the local record exists and the remote call of the handler
    raises [ex], the handler answers with the status
    [getattr(ex, "status", 500)] and the message
    [getattr(ex, "reason", str(ex))]: [get] whenever its [apps.show]
    raises, [update] whenever its [apps.update] raises, each on its own
    (an update can be rejected for an app that can be shown). *)
Theorem remote_failure_mapped (w : World R) (project_id app : string)
    (data : fn.Params) :
  app_model.exists_ (registry w) app project_id = true ->
  (forall ex : Exn,
     fn.apps_show app (remote w) = inl ex ->
     fst (get project_id app w) =
       Returned
         (json_response
            (error_message
               match ex_reason ex with
               | Some reason => reason
               | None => ex_str ex
               end)
            match ex_status ex with
            | Some declared => declared
            | None => 500
            end))
  /\ (forall ex : Exn,
        fst (fn.apps_update app data (remote w)) = inl ex ->
        fst (update project_id app data w) =
          Returned
            (json_response
               (error_message
                  match ex_reason ex with
                  | Some reason => reason
                  | None => ex_str ex
                  end)
               match ex_status ex with
               | Some declared => declared
               | None => 500
               end)).
Proof.
  intros Hex. split.
  - intros ex Hshow.
    destruct (exists_find_by _ _ _ Hex) as [init [stored Hfind]].
    run_handler. rewrite Hex. step. rewrite Hfind, py_pop_snoc. step.
    rewrite Hshow. reflexivity.
  - intros ex Hupdate. run_handler. rewrite Hex. step.
    destruct (fn.apps_update app data (remote w)) as [r rm].
    cbn [fst] in Hupdate. subst r. reflexivity.
Qed.

(** C6. After a successful [create] (a 200), a [get] on the derived name
    whose remote fetch succeeds answers 200 with a view whose name is the
    derived name, whose project is the request's and whose description is
    the submitted one, or "App for project {project_id}" when the body
    had none. *)
Theorem create_then_get (w w1 : World R) (project_id : string)
    (data : CreateData) (resp : Response) (fn_app : fn.App) :
  let app_name := create_app_name project_id data in
  create project_id data w = (Returned resp, w1) ->
  status resp = 200 ->
  fn.apps_show app_name (remote w1) = inr fn_app ->
  fst (get project_id app_name w1) =
    Returned
      (json_response
         (app_message
            (app_view.mkView app_name project_id
               match data_app_description data with
               | Some submitted => submitted
               | None => ("App for project " ++ project_id)%string
               end
               fn_app)
            "Successfully loaded app")
         200).
Proof.
  intros app_name Hcreate Hstatus Hshow. revert Hcreate.
  run_handler. fold app_name.
  destruct (app_model.exists_ (registry w) app_name project_id) eqn:Hex.
  - intros E. inversion E; subst. discriminate Hstatus.
  - step.
    destruct (fn.apps_create app_name (remote w)) as [[ex | created] rm];
      step; intros E; [discriminate E|].
    inversion E; subst; clear E. step.
    cbn [remote] in Hshow.
    rewrite exists_saved. step.
    rewrite (find_by_saved _ _ _ _ Hex). cbn [py_pop]. step.
    rewrite Hshow. reflexivity.
Qed.

(** C7, amended. When the local record exists and the remote fetch
    succeeds, the record [get] shows is the last one of the sequence the
    registry lookup returns (the item [pop()] takes); when the lookup
    returns exactly one record, that is the record shown. *)
Theorem get_takes_last (w : World R) (project_id app : string)
    (fn_app : fn.App) :
  app_model.exists_ (registry w) app project_id = true ->
  fn.apps_show app (remote w) = inr fn_app ->
  exists init stored,
    app_model.find_by (registry w) project_id (Some app) = init ++ [stored]
    /\ fst (get project_id app w) =
         Returned
           (json_response
              (app_message
                 (app_view.view (app_view.mkAppView stored fn_app))
                 "Successfully loaded app")
              200)
    /\ (Datatypes.length
          (app_model.find_by (registry w) project_id (Some app)) = 1%nat
        -> app_model.find_by (registry w) project_id (Some app) = [stored]).
Proof.
  intros Hex Hshow.
  destruct (exists_find_by _ _ _ Hex) as [init [stored Hfind]].
  exists init, stored. split; [exact Hfind|split].
  - run_handler. rewrite Hex. step. rewrite Hfind, py_pop_snoc. step.
    rewrite Hshow. reflexivity.
  - rewrite Hfind. rewrite length_app. cbn [Datatypes.length].
    destruct init as [|a init]; [reflexivity|].
    cbn [Datatypes.length]. lia.
Qed.

(** C8. When [delete] reaches the deletion step (the record exists, both
    fetches succeed, there is no route), it issues the registry deletion
    and then the remote deletion, in this order and both: the record is
    gone from the registry, the platform is what its own deletion makes
    of it, and the answer is 200 unless the remote deletion raises. *)
Theorem delete_order (w : World R) (project_id app : string)
    (fn_app : fn.App) :
  app_model.exists_ (registry w) app project_id = true ->
  fn.apps_show app (remote w) = inr fn_app ->
  fn.routes_list fn_app (remote w) = inr [] ->
  let w' := snd (delete project_id app w) in
  calls w' =
    calls w ++ [Apps_exists_call app project_id;
                fn_apps_show_call app;
                fn_routes_list_call fn_app;
                Apps_delete_call project_id app;
                fn_apps_delete_call app]
  /\ registry w' = app_model.delete (registry w) project_id app
  /\ remote w' = snd (fn.apps_delete app (remote w))
  /\ fst (delete project_id app w) =
       match fst (fn.apps_delete app (remote w)) with
       | inr _ =>
           Returned
             (json_response (message_only "App successfully deleted") 200)
       | inl ex => Raised ex
       end.
Proof.
  intros Hex Hshow Hroutes w'. unfold w'. clear w'.
  run_handler. rewrite Hex. step. rewrite Hshow. step.
  rewrite Hroutes. step.
  destruct (fn.apps_delete app (remote w)) as [[ex | []] rm]; step;
    rewrite <- !app_assoc; repeat split; reflexivity.
Qed.

(** C9. [update] never writes the registry: whatever the body and
    whatever the outcome, the registry after it is the registry before
    it, and it has issued neither a save nor a registry deletion. *)
Theorem update_registry_frame (w : World R) (project_id app_name : string)
    (data : fn.Params) :
  registry (snd (update project_id app_name data w)) = registry w
  /\ filter is_registry_write
       (calls (snd (update project_id app_name data w)))
     = filter is_registry_write (calls w).
Proof.
  run_handler.
  destruct (app_model.exists_ (registry w) app_name project_id); step.
  - destruct (fn.apps_update app_name data (remote w)) as [[ex | fn_app] rm];
      step.
    + split; [reflexivity|].
      rewrite <- !app_assoc. apply filter_snoc_skip. reflexivity.
    + destruct (py_pop (app_model.find_by (registry w) project_id
                          (Some app_name))) as [[stored rest]|]; step;
        (split; [reflexivity|]);
        rewrite <- !app_assoc; apply filter_snoc_skip; reflexivity.
  - split; [reflexivity|]. apply filter_snoc_skip. reflexivity.
Qed.

(** The loop of [list] stops at the first app whose remote lookup raises,
    with that exception, whatever it has accumulated so far. *)
Lemma list_loop_raises (stored_apps : Datatypes.list app_model.Apps) :
  forall (final : Datatypes.list app_view.View) (w : World R)
         (a : app_model.Apps) (ex : Exn),
    In a stored_apps ->
    fn.apps_show (app_model.name a) (remote w) = inl ex ->
    exists a' ex',
      In a' stored_apps
      /\ fn.apps_show (app_model.name a') (remote w) = inl ex'
      /\ fst (list_loop stored_apps final w) = Raised ex'
      /\ registry (snd (list_loop stored_apps final w)) = registry w
      /\ remote (snd (list_loop stored_apps final w)) = remote w.
Proof.
  induction stored_apps as [|a0 rest IH]; intros final w a ex Hin Hshow.
  - destruct Hin.
  - cbn [list_loop]. unfold fn_apps_show, bind, issue. step.
    destruct (fn.apps_show (app_model.name a0) (remote w))
      as [ex0 | fn_app] eqn:E0; step.
    + exists a0, ex0. repeat split; try reflexivity.
      * left. reflexivity.
      * exact E0.
    + destruct Hin as [-> | Hin]; [congruence|].
      destruct (IH (final ++ [app_view.view (app_view.mkAppView a0 fn_app)])
                  (mkWorld (registry w) (remote w)
                     (calls w ++
                        [fn_apps_show_call (app_model.name a0)]))
                  a ex Hin Hshow)
        as [a' [ex' [Hin' [Hshow' [Hfst [Hreg Hrem]]]]]].
      exists a', ex'. repeat split.
      * right. exact Hin'.
      * exact Hshow'.
      * exact Hfst.
      * exact Hreg.
      * exact Hrem.
Qed.

(** C10. When the remote lookup of one of the project's stored apps
    raises, the body of [list] does not catch it: it ends with the
    exception of the first failing lookup and returns no response, hence
    no list of the apps it had already processed. The exception reaches
    the route decorator: bound by a decorator that only registers the
    route, [list] ends with that exception; bound by one that answers
    for escaped exceptions, [list] returns the decorator's answer for
    that exception. Either way the listing is aborted as a whole. *)
Theorem list_remote_failure_propagates (w : World R) (project_id : string)
    (a : app_model.Apps) (ex : Exn) :
  In a (app_model.find_by (registry w) project_id None) ->
  fn.apps_show (app_model.name a) (remote w) = inl ex ->
  exists a' ex',
    In a' (app_model.find_by (registry w) project_id None)
    /\ fn.apps_show (app_model.name a') (remote w) = inl ex'
    /\ fst (AppV1Controller.list project_id w) = Raised ex'
    /\ (forall resp : Response,
          fst (AppV1Controller.list project_id w) <> Returned resp)
    /\ (forall decorator : requests.ApiAction R,
          requests.registers_only decorator ->
          fst (AppV1Actions.list (decorator := decorator) project_id w)
          = Raised ex')
    /\ (forall (decorator : requests.ApiAction R)
               (on_error : Exn -> Response),
          requests.answers_errors decorator on_error ->
          fst (AppV1Actions.list (decorator := decorator) project_id w)
          = Returned (on_error ex')).
Proof.
  intros Hin Hshow.
  destruct (list_loop_raises
              (app_model.find_by (registry w) project_id None) []
              (mkWorld (registry w) (remote w)
                 (calls w ++ [Apps_find_by_call project_id None]))
              a ex Hin Hshow)
    as [a' [ex' [Hin' [Hshow' [Hfst _]]]]].
  assert (E : fst (AppV1Controller.list project_id w) = Raised ex').
  { unfold AppV1Controller.list, Apps_find_by, bind, issue, ret. step.
    destruct (list_loop _ _ _) as [o w2]. cbn [fst] in Hfst. subst o.
    reflexivity. }
  exists a', ex'.
  split; [exact Hin'|]. split; [exact Hshow'|]. split; [exact E|].
  split; [|split].
  - intros resp. rewrite E. discriminate.
  - intros decorator Hplain. unfold AppV1Actions.list.
    rewrite Hplain. exact E.
  - intros decorator on_error Hanswers. unfold AppV1Actions.list.
    rewrite Hanswers.
    destruct (AppV1Controller.list project_id w) as [o w2].
    cbn [fst] in E. subst o. reflexivity.
Qed.


End Contract.

(** ** The contract on concrete requests *)

Import Scenario.

(** Posting "billing" to project p1 a second time. *)
Lemma create_conflict_witness :
  app_model.exists_ (registry w_billing)
    (create_app_name "p1" (mkCreateData "billing" None)) "p1" = true
  /\ create "p1" (mkCreateData "billing" None) w_billing =
       (Returned
          (json_response (error_message "App billing-p1 already exists") 409),
        mkWorld [billing] (remote w_billing)
          [Apps_exists_call "billing-p1" "p1"]).
Proof.
  split; [reflexivity|].
  exact (proj1 (create_conflict w_billing "p1" (mkCreateData "billing" None)
                  eq_refl)).
Defined.

(** Deleting billing-p1 while it has two routes. *)
Lemma delete_with_routes_forbidden_witness :
  app_model.exists_ (registry w_routes) "billing-p1" "p1" = true
  /\ fn.apps_show "billing-p1" (remote w_routes) = inr fn_billing
  /\ fn.routes_list fn_billing (remote w_routes)
     = inr ["/invoices"; "/refunds"]
  /\ delete "p1" "billing-p1" w_routes =
       (Returned
          (json_response
             (error_message "Unable to delete app billing-p1 with routes")
             403),
        mkWorld (registry w_routes) (remote w_routes)
          [Apps_exists_call "billing-p1" "p1";
           fn_apps_show_call "billing-p1";
           fn_routes_list_call fn_billing]).
Proof.
  split; [reflexivity|]. split; [reflexivity|]. split; [reflexivity|].
  exact (proj1 (delete_with_routes_forbidden w_routes "p1" "billing-p1"
                  fn_billing "/invoices" ["/refunds"]
                  eq_refl eq_refl eq_refl)).
Defined.


(** A platform that lost the app answers with its own 404; a platform
    that cannot be reached raises an error without status or reason; a
    platform that shows the app may still reject its update. *)
Lemma remote_failure_mapped_witness :
  (app_model.exists_ (registry w_orphan) "billing-p1" "p1" = true
   /\ fn.apps_show "billing-p1" (remote w_orphan)
      = inl (MemPlatform.NotFound "billing-p1")
   /\ fst (get "p1" "billing-p1" w_orphan) =
        Returned
          (json_response (error_message "App billing-p1 not found") 404)
   /\ fst (update "p1" "billing-p1" [("description", "new")] w_orphan) =
        Returned
          (json_response (error_message "App billing-p1 not found") 404))
  /\ (fn.apps_show "billing-p1" (remote w_down)
      = inl MemPlatform.ConnectionError
      /\ fst (get "p1" "billing-p1" w_down) =
           Returned
             (json_response (error_message "Cannot connect to host") 500)
      /\ fst (update "p1" "billing-p1" [] w_down) =
           Returned
             (json_response (error_message "Cannot connect to host") 500))
  /\ (fn.apps_show (Client := update_rejects) "billing-p1" (remote w_billing)
      = inr fn_billing
      /\ fst (update (fnclient := update_rejects)
                "p1" "billing-p1" [("config", "none")] w_billing) =
           Returned (json_response (error_message "bad config") 400)).
Proof.
  split; [|split].
  - split; [reflexivity|]. split; [reflexivity|].
    pose proof (remote_failure_mapped (fnclient := MemPlatform.client)
                  w_orphan "p1" "billing-p1"
                  [("description", "new")] eq_refl) as [Hget Hupdate].
    split.
    + exact (Hget (MemPlatform.NotFound "billing-p1") eq_refl).
    + exact (Hupdate (MemPlatform.NotFound "billing-p1") eq_refl).
  - split; [reflexivity|].
    pose proof (remote_failure_mapped (fnclient := MemPlatform.client)
                  w_down "p1" "billing-p1" []
                  eq_refl) as [Hget Hupdate].
    split.
    + exact (Hget MemPlatform.ConnectionError eq_refl).
    + exact (Hupdate MemPlatform.ConnectionError eq_refl).
  - split; [reflexivity|].
    pose proof (remote_failure_mapped (fnclient := update_rejects)
                  w_billing "p1" "billing-p1" [("config", "none")]
                  eq_refl) as [_ Hupdate].
    exact (Hupdate BadConfig eq_refl).
Defined.


(** POST /p1/apps with [{"app": {"name": "billing"}}], then
    GET /p1/apps/billing-p1. *)
Lemma create_then_get_witness :
  let created := create "p1" (mkCreateData "billing" None) w_empty in
  returned_status created = Some 200
  /\ fst (get "p1" "billing-p1" (snd created)) =
       Returned
         (json_response
            (app_message
               (app_view.mkView "billing-p1" "p1" "App for project p1"
                  fn_billing)
               "Successfully loaded app")
            200).
Proof.
  split; [reflexivity|].
  exact (create_then_get w_empty
           (snd (create "p1" (mkCreateData "billing" None) w_empty))
           "p1" (mkCreateData "billing" None)
           (json_response
              (app_message
                 (app_view.mkView "billing-p1" "p1" "App for project p1"
                    fn_billing)
                 "App successfully created")
              200)
           fn_billing eq_refl eq_refl eq_refl).
Defined.

(** With two records under one name, [get] shows the one stored last. *)
Lemma get_takes_last_witness :
  app_model.find_by (registry w_dup) "p1" (Some "billing-p1")
  = [older; newer]
  /\ exists init stored,
       app_model.find_by (registry w_dup) "p1" (Some "billing-p1")
       = init ++ [stored]
       /\ fst (get "p1" "billing-p1" w_dup) =
            Returned
              (json_response
                 (app_message
                    (app_view.view (app_view.mkAppView stored fn_billing))
                    "Successfully loaded app")
                 200)
       /\ (Datatypes.length
             (app_model.find_by (registry w_dup) "p1" (Some "billing-p1"))
           = 1%nat ->
           app_model.find_by (registry w_dup) "p1" (Some "billing-p1")
           = [stored]).
Proof.
  split; [reflexivity|].
  exact (get_takes_last w_dup "p1" "billing-p1" fn_billing
           eq_refl eq_refl).
Defined.

(** C7, as stated, fails: with the records [older] and [newer] under one
    name, the lookup returns [older] first, and [get] shows [newer]. *)
Lemma get_takes_first_counterexample :
  ~ get_takes_first w_dup "p1" "billing-p1".
Proof.
  intros H.
  specialize (H older [newer] fn_billing eq_refl eq_refl).
  vm_compute in H. discriminate H.
Qed.

(** Deleting billing-p1 once it has no route: the registry first, then
    the platform. *)
Lemma delete_order_witness :
  fn.routes_list fn_billing (remote w_billing) = inr []
  /\ calls (snd (delete "p1" "billing-p1" w_billing)) =
       [Apps_exists_call "billing-p1" "p1";
        fn_apps_show_call "billing-p1";
        fn_routes_list_call fn_billing;
        Apps_delete_call "p1" "billing-p1";
        fn_apps_delete_call "billing-p1"]
  /\ registry (snd (delete "p1" "billing-p1" w_billing)) = []
  /\ remote (snd (delete "p1" "billing-p1" w_billing))
     = MemPlatform.mkState true []
  /\ fst (delete "p1" "billing-p1" w_billing) =
       Returned
         (json_response (message_only "App successfully deleted") 200).
Proof.
  split; [reflexivity|].
  exact (delete_order w_billing "p1" "billing-p1" fn_billing
           eq_refl eq_refl eq_refl).
Defined.

(** The two decorators obey the laws they are named after. *)
Lemma registering_registers_only : requests.registers_only registering.
Proof. intros method route handler w. reflexivity. Qed.

Lemma answering_answers_errors :
  requests.answers_errors answering answer_for.
Proof. intros method route handler w. reflexivity. Qed.

(** Listing a project whose second app the platform has lost: the first
    app was looked up with success, and yet no list comes back, whichever
    decorator binds the method. *)
Lemma list_remote_failure_propagates_witness :
  In reports (app_model.find_by (registry w_partial) "p1" None)
  /\ fn.apps_show "reports-p1" (remote w_partial)
     = inl (MemPlatform.NotFound "reports-p1")
  /\ fst (AppV1Controller.list "p1" w_partial)
     = Raised (MemPlatform.NotFound "reports-p1")
  /\ fst (AppV1Actions.list (decorator := registering) "p1" w_partial)
     = Raised (MemPlatform.NotFound "reports-p1")
  /\ fst (AppV1Actions.list (decorator := answering) "p1" w_partial)
     = Returned
         (json_response (error_message "App reports-p1 not found") 404).
Proof.
  split; [right; left; reflexivity|]. split; [reflexivity|].
  destruct (list_remote_failure_propagates (fnclient := MemPlatform.client)
              w_partial "p1" reports
              (MemPlatform.NotFound "reports-p1")
              (or_intror (or_introl eq_refl)) eq_refl)
    as [a' [ex' [_ [_ [Hbody [_ [Hplain Hanswers]]]]]]].
  assert (Hex : ex' = MemPlatform.NotFound "reports-p1").
  { vm_compute in Hbody. inversion Hbody. reflexivity. }
  subst ex'. split; [exact Hbody|]. split.
  - exact (Hplain registering registering_registers_only).
  - exact (Hanswers answering answer_for answering_answers_errors).
Defined.


(** ** The scenarios of the specification, run *)

Example create_truncates_long_name :
  create_app_name "project-0123456789"
    (mkCreateData "a-very-long-application-name" None)
  = "a-very-long-application-name-p"
  /\ String.length
       (create_app_name "project-0123456789"
          (mkCreateData "a-very-long-application-name" None)) = 30%nat.
Proof. split; reflexivity. Qed.

Example post_billing_creates_billing_p1 :
  create "p1" (mkCreateData "billing" None) w_empty =
    (Returned
       (json_response
          (app_message
             (app_view.mkView "billing-p1" "p1" "App for project p1"
                fn_billing)
             "App successfully created")
          200),
     mkWorld [billing] (MemPlatform.mkState true [(fn_billing, [])])
       [Apps_exists_call "billing-p1" "p1";
        fn_apps_create_call "billing-p1";
        Apps_save_call billing]).
Proof. reflexivity. Qed.

Example post_billing_twice_conflicts :
  returned_status
    (create "p1" (mkCreateData "billing" None)
       (snd (create "p1" (mkCreateData "billing" None) w_empty)))
  = Some 409.
Proof. reflexivity. Qed.

Example create_failure_is_not_caught :
  fst (create "p1" (mkCreateData "billing" None)
         (mkWorld [] (MemPlatform.mkState false []) []))
  = Raised MemPlatform.ConnectionError.
Proof. reflexivity. Qed.

Example list_empty_project :
  fst (AppV1Controller.list "p2" w_billing) =
    Returned
      (json_response (apps_message [] "Successfully listed applications") 200).
Proof. reflexivity. Qed.

(** * Beyond the lifecycle contract

    What the handlers do on the paths the contract above leaves out:
    the successful runs, the failures nobody catches, and how requests
    compose. *)

(** ** More on strings and on the registry *)

Lemma chars_inj (s1 s2 : string) :
  PyStr.chars s1 = PyStr.chars s2 -> s1 = s2.
Proof.
  unfold PyStr.chars. intros H.
  rewrite <- (string_of_list_ascii_of_string s1).
  rewrite <- (string_of_list_ascii_of_string s2).
  rewrite H. reflexivity.
Qed.

Lemma chars_append (s1 s2 : string) :
  PyStr.chars (s1 ++ s2)%string = PyStr.chars s1 ++ PyStr.chars s2.
Proof.
  unfold PyStr.chars. induction s1 as [|c s1 IH]; simpl; [reflexivity|].
  rewrite IH. reflexivity.
Qed.

Lemma append_assoc (s1 s2 s3 : string) :
  ((s1 ++ s2) ++ s3 = s1 ++ (s2 ++ s3))%string.
Proof.
  induction s1 as [|c s1 IH]; simpl; [reflexivity|].
  rewrite IH. reflexivity.
Qed.

Lemma slice_to_append (n : nat) (s1 s2 : string) :
  (n <= String.length s1)%nat ->
  PyStr.slice_to n (s1 ++ s2)%string = PyStr.slice_to n s1.
Proof.
  revert s1; induction n as [|n IH]; intros [|c s1]; simpl; intros H;
    try reflexivity; try lia.
  f_equal. apply IH. lia.
Qed.


Lemma matches_key (pid nm : string) (a : app_model.Apps) :
  app_model.matches pid (Some nm) a = true ->
  app_model.project_id a = pid /\ app_model.name a = nm.
Proof.
  unfold app_model.matches. intros H. apply andb_true_iff in H.
  destruct H as [Hp Hn]. split; apply String.eqb_eq; assumption.
Qed.

Lemma find_by_other_deleted (reg : Datatypes.list app_model.Apps)
    (pid nm pid' nm' : string) :
  (pid', nm') <> (pid, nm) ->
  app_model.find_by (app_model.delete reg pid nm) pid' (Some nm')
  = app_model.find_by reg pid' (Some nm').
Proof.
  intros Hne. unfold app_model.find_by, app_model.delete.
  induction reg as [|a reg IH]; simpl; [reflexivity|].
  destruct (app_model.matches pid (Some nm) a) eqn:E; simpl.
  - destruct (app_model.matches pid' (Some nm') a) eqn:E'; [|exact IH].
    apply matches_key in E. apply matches_key in E'.
    destruct E as [<- <-]. destruct E' as [<- <-].
    exfalso. apply Hne. reflexivity.
  - rewrite IH. reflexivity.
Qed.

Section Coverage.
Context {R : Type} {fnclient : fn.Client R}.

(** What [create] leaves behind when it answers with a created app. *)
Lemma create_created_inv (w w1 : World R) (project_id : string)
    (data : CreateData) (resp : Response) :
  create project_id data w = (Returned resp, w1) ->
  status resp = 200 ->
  app_model.exists_ (registry w) (create_app_name project_id data) project_id
  = false
  /\ registry w1 =
       registry w ++
         [app_model.mkApps (create_app_name project_id data) project_id
            (create_description project_id data)].
Proof.
  run_handler.
  destruct (app_model.exists_ (registry w)
              (create_app_name project_id data) project_id) eqn:Hex.
  - intros E Hs. inversion E; subst. discriminate Hs.
  - step.
    destruct (fn.apps_create (create_app_name project_id data) (remote w))
      as [[ex | fn_app] rm]; step; intros E Hs; [discriminate E|].
    inversion E; subst. split; reflexivity.
Qed.

(** The loop of [list] over apps whose lookups all succeed. *)
Lemma list_loop_returns (stored_apps : Datatypes.list app_model.Apps) :
  forall (fn_apps : Datatypes.list fn.App)
         (final : Datatypes.list app_view.View) (w : World R),
    Forall2 (fun a f => fn.apps_show (app_model.name a) (remote w) = inr f)
      stored_apps fn_apps ->
    list_loop stored_apps final w =
      (Returned
         (final ++
            map (fun p => app_view.view (app_view.mkAppView (fst p) (snd p)))
              (combine stored_apps fn_apps)),
       mkWorld (registry w) (remote w)
         (calls w ++
            map (fun a => fn_apps_show_call (app_model.name a)) stored_apps)).
Proof.
  induction stored_apps as [|a rest IH]; intros fn_apps final w H.
  - inversion H; subst. cbn [list_loop combine map]. unfold ret.
    rewrite !app_nil_r. destruct w; reflexivity.
  - inversion H as [|a' f rest' fs Hshow Hrest]; subst.
    cbn [list_loop combine map]. unfold fn_apps_show, bind, issue. step.
    rewrite Hshow. step.
    rewrite (IH fs _ (mkWorld (registry w) (remote w)
                        (calls w ++ [fn_apps_show_call (app_model.name a)]))
               Hrest).
    cbn [registry remote calls fst snd]. rewrite <- !app_assoc. reflexivity.
Qed.

(** The loop of [list] writes nowhere, however it ends. *)
Lemma list_loop_frame (stored_apps : Datatypes.list app_model.Apps) :
  forall (final : Datatypes.list app_view.View) (w : World R),
    registry (snd (list_loop stored_apps final w)) = registry w
    /\ remote (snd (list_loop stored_apps final w)) = remote w
    /\ filter is_write (calls (snd (list_loop stored_apps final w)))
       = filter is_write (calls w).
Proof.
  induction stored_apps as [|a rest IH]; intros final w.
  - cbn [list_loop]. unfold ret. step. repeat split; reflexivity.
  - cbn [list_loop]. unfold fn_apps_show, bind, issue. step.
    destruct (fn.apps_show (app_model.name a) (remote w)) as [ex | f]; step.
    + split; [reflexivity|]. split; [reflexivity|].
      apply filter_snoc_skip. reflexivity.
    + destruct (IH (final ++ [app_view.view (app_view.mkAppView a f)])
                  (mkWorld (registry w) (remote w)
                     (calls w ++ [fn_apps_show_call (app_model.name a)])))
        as [Hreg [Hrem Hcalls]].
      split; [exact Hreg|]. split; [exact Hrem|].
      rewrite Hcalls. cbn [calls]. apply filter_snoc_skip. reflexivity.
Qed.

(** X1. When the remote lookup of every stored app of the project
    succeeds, [list] answers 200 with one view per stored app, in the
    order of the registry lookup, each pairing the record with the remote
    app looked up under its name; it has issued the lookup and then one
    [apps.show] per app, in that order, and nothing else. *)
Theorem list_returns_all_views (w : World R) (project_id : string)
    (fn_apps : Datatypes.list fn.App) :
  Forall2 (fun a f => fn.apps_show (app_model.name a) (remote w) = inr f)
    (app_model.find_by (registry w) project_id None) fn_apps ->
  AppV1Controller.list project_id w =
    (Returned
       (json_response
          (apps_message
             (map (fun p => app_view.view (app_view.mkAppView (fst p) (snd p)))
                (combine (app_model.find_by (registry w) project_id None)
                   fn_apps))
             "Successfully listed applications")
          200),
     mkWorld (registry w) (remote w)
       (calls w ++
          Apps_find_by_call project_id None ::
          map (fun a => fn_apps_show_call (app_model.name a))
            (app_model.find_by (registry w) project_id None))).
Proof.
  intros H.
  unfold AppV1Controller.list, Apps_find_by, bind, issue, ret. step.
  rewrite (list_loop_returns _ fn_apps []
             (mkWorld (registry w) (remote w)
                (calls w ++ [Apps_find_by_call project_id None])) H).
  cbn [registry remote calls app]. rewrite <- app_assoc. reflexivity.
Qed.

(** X2. [list] only reads: whatever the stores hold and however the
    lookups end, the registry and the platform are afterwards what they
    were, and no writing call has been issued. *)
Theorem list_read_only (w : World R) (project_id : string) :
  registry (snd (AppV1Controller.list project_id w)) = registry w
  /\ remote (snd (AppV1Controller.list project_id w)) = remote w
  /\ filter is_write (calls (snd (AppV1Controller.list project_id w)))
     = filter is_write (calls w).
Proof.
  unfold AppV1Controller.list, Apps_find_by, bind, issue, ret. step.
  destruct (list_loop_frame
              (app_model.find_by (registry w) project_id None) []
              (mkWorld (registry w) (remote w)
                 (calls w ++ [Apps_find_by_call project_id None])))
    as [Hreg [Hrem Hcalls]].
  destruct (list_loop _ _ _) as [[final | ex] w2];
    cbn [snd registry remote calls] in *;
    (split; [exact Hreg|]; split; [exact Hrem|]);
    rewrite Hcalls; apply filter_snoc_skip; reflexivity.
Qed.

(** X4. [get] only reads: the registry and the platform are afterwards
    what they were, and no writing call has been issued, whatever the
    outcome. *)
Theorem get_read_only (w : World R) (project_id app : string) :
  registry (snd (get project_id app w)) = registry w
  /\ remote (snd (get project_id app w)) = remote w
  /\ filter is_write (calls (snd (get project_id app w)))
     = filter is_write (calls w).
Proof.
  run_handler.
  destruct (app_model.exists_ (registry w) app project_id); step.
  - destruct (py_pop (app_model.find_by (registry w) project_id (Some app)))
      as [[stored rest]|]; step.
    + destruct (fn.apps_show app (remote w)) as [ex | fn_app]; step;
        (split; [reflexivity|]; split; [reflexivity|]);
        rewrite <- !app_assoc; apply filter_snoc_skip; reflexivity.
    + split; [reflexivity|]. split; [reflexivity|].
      rewrite <- !app_assoc. apply filter_snoc_skip. reflexivity.
  - split; [reflexivity|]. split; [reflexivity|].
    apply filter_snoc_skip. reflexivity.
Qed.

(** X5. A failure of the remote creation is not caught by the body of
    [create]: the exception leaves it after the existence check and the
    remote call only, and no record is saved. What the caller gets is the
    route decorator's doing: the same exception under a decorator that
    only registers the route, the decorator's answer for that exception
    under one that answers for escaped exceptions; the registry is the
    same in both cases. *)
Theorem create_remote_failure_propagates (w : World R) (project_id : string)
    (data : CreateData) (ex : Exn) (rm : R) :
  let app_name := create_app_name project_id data in
  let w' :=
    mkWorld (registry w) rm
      (calls w ++ [Apps_exists_call app_name project_id;
                   fn_apps_create_call app_name]) in
  app_model.exists_ (registry w) app_name project_id = false ->
  fn.apps_create app_name (remote w) = (inl ex, rm) ->
  create project_id data w = (Raised ex, w')
  /\ (forall decorator : requests.ApiAction R,
        requests.registers_only decorator ->
        AppV1Actions.create (decorator := decorator) project_id data w
        = (Raised ex, w'))
  /\ (forall (decorator : requests.ApiAction R)
             (on_error : Exn -> Response),
        requests.answers_errors decorator on_error ->
        AppV1Actions.create (decorator := decorator) project_id data w
        = (Returned (on_error ex), w')).
Proof.
  intros app_name w' Hex Hcreate.
  assert (E : create project_id data w = (Raised ex, w')).
  { run_handler. fold app_name. rewrite Hex. step. rewrite Hcreate. step.
    unfold w'. rewrite <- !app_assoc. reflexivity. }
  split; [exact E|]. split.
  - intros decorator Hplain. unfold AppV1Actions.create.
    rewrite Hplain. exact E.
  - intros decorator on_error Hanswers. unfold AppV1Actions.create.
    rewrite Hanswers, E. reflexivity.
Qed.


(** X6. A successful [create] creates the remote app first and saves the
    local record second: it issues the existence check, the remote
    creation and the save, in this order, appends the record (derived
    name, project, submitted or default description) to the registry, and
    answers 200 with the view of that record and of the app the platform
    returned. *)
Theorem create_remote_then_local (w : World R) (project_id : string)
    (data : CreateData) (fn_app : fn.App) (rm : R) :
  let app_name := create_app_name project_id data in
  let stored :=
    app_model.mkApps app_name project_id
      match data_app_description data with
      | Some submitted => submitted
      | None => ("App for project " ++ project_id)%string
      end in
  app_model.exists_ (registry w) app_name project_id = false ->
  fn.apps_create app_name (remote w) = (inr fn_app, rm) ->
  create project_id data w =
    (Returned
       (json_response
          (app_message (app_view.view (app_view.mkAppView stored fn_app))
             "App successfully created")
          200),
     mkWorld (registry w ++ [stored]) rm
       (calls w ++ [Apps_exists_call app_name project_id;
                    fn_apps_create_call app_name;
                    Apps_save_call stored])).
Proof.
  intros app_name stored Hex Hcreate. run_handler. fold app_name.
  rewrite Hex. step. rewrite Hcreate. step.
  rewrite <- !app_assoc. reflexivity.
Qed.

(** X7. After a [create] that answered 200, every [create] in the same
    project whose ["{name}-{project_id}"] has the same first 30 characters
    (the same body again, or a longer name that differs only past the
    cut) is refused with 409, after the existence check alone. *)
Theorem create_again_conflicts (w w1 : World R) (project_id : string)
    (data data' : CreateData) (resp : Response) :
  create project_id data w = (Returned resp, w1) ->
  status resp = 200 ->
  firstn 30 (PyStr.chars (PyStr.format_dash (data_app_name data') project_id))
  = firstn 30 (PyStr.chars (PyStr.format_dash (data_app_name data) project_id))
  ->
  create project_id data' w1 =
    (Returned
       (json_response
          (error_message
             ("App " ++ create_app_name project_id data
                ++ " already exists")%string)
          409),
     mkWorld (registry w1) (remote w1)
       (calls w1 ++
          [Apps_exists_call (create_app_name project_id data) project_id])).
Proof.
  intros Hcreate Hstatus Hprefix.
  destruct (create_created_inv _ _ _ _ _ Hcreate Hstatus) as [_ Hreg].
  assert (Hname : create_app_name project_id data'
                  = create_app_name project_id data).
  { unfold create_app_name. apply chars_inj.
    rewrite !slice_to_chars. exact Hprefix. }
  run_handler. rewrite Hname, Hreg, exists_saved. reflexivity.
Qed.

(** X8. A successful [update] calls the remote update first, with the
    request body passed on as it came, and reads the local record back
    second; it answers 200 with the view of the stored record (the last
    one the lookup returns) and of the app the platform returned, so the
    local fields shown are the stored ones, whatever the body says. *)
Theorem update_remote_then_reread (w : World R) (project_id app_name : string)
    (data : fn.Params) (fn_app : fn.App) (rm : R) :
  app_model.exists_ (registry w) app_name project_id = true ->
  fn.apps_update app_name data (remote w) = (inr fn_app, rm) ->
  exists init stored,
    app_model.find_by (registry w) project_id (Some app_name)
    = init ++ [stored]
    /\ update project_id app_name data w =
         (Returned
            (json_response
               (app_message
                  (app_view.view (app_view.mkAppView stored fn_app))
                  "App successfully updated")
               200),
          mkWorld (registry w) rm
            (calls w ++ [Apps_exists_call app_name project_id;
                         fn_apps_update_call app_name data;
                         Apps_find_by_call project_id (Some app_name)])).
Proof.
  intros Hex Hupdate.
  destruct (exists_find_by _ _ _ Hex) as [init [stored Hfind]].
  exists init, stored. split; [exact Hfind|].
  run_handler. rewrite Hex. step. rewrite Hupdate. step.
  rewrite Hfind, py_pop_snoc. step. rewrite <- !app_assoc. reflexivity.
Qed.

(** X9. When one of the two fetches of [delete] raises ([apps.show], or
    [routes.list] on the app just shown), [delete] answers with the
    exception's status and reason and deletes nothing: the registry and
    the platform are what they were and no writing call is issued. *)
Theorem delete_fetch_failure_keeps_both (w : World R)
    (project_id app : string) (ex : Exn) :
  app_model.exists_ (registry w) app project_id = true ->
  (fn.apps_show app (remote w) = inl ex
   \/ exists fn_app,
        fn.apps_show app (remote w) = inr fn_app
        /\ fn.routes_list fn_app (remote w) = inl ex) ->
  fst (delete project_id app w) =
    Returned
      (json_response
         (error_message
            match ex_reason ex with
            | Some reason => reason
            | None => ex_str ex
            end)
         match ex_status ex with
         | Some declared => declared
         | None => 500
         end)
  /\ registry (snd (delete project_id app w)) = registry w
  /\ remote (snd (delete project_id app w)) = remote w
  /\ filter is_write (calls (snd (delete project_id app w)))
     = filter is_write (calls w).
Proof.
  intros Hex [Hshow | [fn_app [Hshow Hroutes]]].
  - run_handler. rewrite Hex. step. rewrite Hshow. step.
    split; [reflexivity|]. split; [reflexivity|]. split; [reflexivity|].
    rewrite <- !app_assoc. apply filter_snoc_skip. reflexivity.
  - run_handler. rewrite Hex. step. rewrite Hshow. step.
    rewrite Hroutes. step.
    split; [reflexivity|]. split; [reflexivity|]. split; [reflexivity|].
    rewrite <- !app_assoc. apply filter_snoc_skip. reflexivity.
Qed.


(** X11. [delete] touches only the records of the app it names: for any
    other project or name, the registry lookup returns after [delete]
    what it returned before, whatever the outcome of [delete]. *)
Theorem delete_keeps_other_apps (w : World R) (project_id app : string)
    (project_id' app' : string) :
  (project_id', app') <> (project_id, app) ->
  app_model.find_by (registry (snd (delete project_id app w)))
    project_id' (Some app')
  = app_model.find_by (registry w) project_id' (Some app').
Proof.
  intros Hne. run_handler.
  destruct (app_model.exists_ (registry w) app project_id); step;
    [|reflexivity].
  destruct (fn.apps_show app (remote w)) as [ex | fn_app]; step;
    [reflexivity|].
  destruct (fn.routes_list fn_app (remote w)) as [ex | [|route routes]];
    step; try reflexivity.
  destruct (fn.apps_delete app (remote w)) as [[ex | []] rm]; step;
    apply find_by_other_deleted; exact Hne.
Qed.

End Coverage.

(** ** The derived name *)

(** X12. A requested name of 30 characters or more fills the derived
    name on its own: the derived name is the first 30 characters of the
    requested name and no longer depends on the project, so the same long
    name in two projects is the same name on the remote platform. *)
Theorem long_name_drops_project (data : CreateData)
    (project_id project_id' : string) :
  (30 <= String.length (data_app_name data))%nat ->
  create_app_name project_id data = PyStr.slice_to 30 (data_app_name data)
  /\ create_app_name project_id data = create_app_name project_id' data.
Proof.
  intros H. unfold create_app_name, PyStr.format_dash.
  rewrite !slice_to_append by exact H. split; reflexivity.
Qed.

(** X13. A ["{name}-{project_id}"] of at most 30 characters is kept
    whole, so within one project two requested names that both fit give
    the same derived name only when they are the same name. *)
Theorem short_names_do_not_collide (data data' : CreateData)
    (project_id : string) :
  (String.length
     (PyStr.format_dash (data_app_name data) project_id) <= 30)%nat ->
  (String.length
     (PyStr.format_dash (data_app_name data') project_id) <= 30)%nat ->
  create_app_name project_id data = create_app_name project_id data' ->
  create_app_name project_id data
  = (data_app_name data ++ "-" ++ project_id)%string
  /\ data_app_name data = data_app_name data'.
Proof.
  intros H H' E. unfold create_app_name in *.
  rewrite (slice_to_short _ _ H) in *. rewrite (slice_to_short _ _ H') in E.
  split; [reflexivity|].
  unfold PyStr.format_dash in E.
  apply (f_equal PyStr.chars) in E. rewrite !chars_append in E.
  apply app_inv_tail in E. apply chars_inj. exact E.
Qed.

(** X14. The dash does not separate: the name [a-b] in project [c] and
    the name [a] in project [b-c] derive the same app name, so the
    derived name does not tell the two (project, name) pairs apart. *)
Theorem dash_is_ambiguous (a b c : string) (descr descr' : option string) :
  create_app_name c (mkCreateData (a ++ "-" ++ b)%string descr)
  = create_app_name (b ++ "-" ++ c)%string (mkCreateData a descr').
Proof.
  unfold create_app_name, PyStr.format_dash. cbn [data_app_name].
  f_equal. rewrite !append_assoc. reflexivity.
Qed.

(** ** These properties on concrete requests *)

(** Listing a project with two hosted apps. *)
Lemma list_returns_all_views_witness :
  Forall2
    (fun a f => fn.apps_show (app_model.name a) (remote w_two) = inr f)
    (app_model.find_by (registry w_two) "p1" None) [fn_billing; fn_reports]
  /\ AppV1Controller.list "p1" w_two =
       (Returned
          (json_response
             (apps_message
                [app_view.mkView "billing-p1" "p1" "App for project p1"
                   fn_billing;
                 app_view.mkView "reports-p1" "p1" "App for project p1"
                   fn_reports]
                "Successfully listed applications")
             200),
        mkWorld (registry w_two) (remote w_two)
          [Apps_find_by_call "p1" None;
           fn_apps_show_call "billing-p1";
           fn_apps_show_call "reports-p1"]).
Proof.
  split.
  - cbn. repeat constructor.
  - refine (list_returns_all_views w_two "p1" [fn_billing; fn_reports] _).
    cbn. repeat constructor.
Defined.

(** Creating an app while the platform cannot be reached. *)
Lemma create_remote_failure_propagates_witness :
  let w := mkWorld [] (MemPlatform.mkState false []) [] in
  let w' :=
    mkWorld [] (MemPlatform.mkState false [])
      [Apps_exists_call "billing-p1" "p1";
       fn_apps_create_call "billing-p1"] in
  app_model.exists_ (registry w) "billing-p1" "p1" = false
  /\ create "p1" (mkCreateData "billing" None) w
     = (Raised MemPlatform.ConnectionError, w')
  /\ AppV1Actions.create (decorator := registering)
       "p1" (mkCreateData "billing" None) w
     = (Raised MemPlatform.ConnectionError, w')
  /\ AppV1Actions.create (decorator := answering)
       "p1" (mkCreateData "billing" None) w
     = (Returned
          (json_response (error_message "Cannot connect to host") 500),
        w').
Proof.
  split; [reflexivity|].
  pose proof (create_remote_failure_propagates
                (fnclient := MemPlatform.client)
                (mkWorld [] (MemPlatform.mkState false []) [])
                "p1" (mkCreateData "billing" None)
                MemPlatform.ConnectionError (MemPlatform.mkState false [])
                eq_refl eq_refl) as [Hbody [Hplain Hanswers]].
  split; [exact Hbody|]. split.
  - exact (Hplain registering registering_registers_only).
  - exact (Hanswers answering answer_for answering_answers_errors).
Defined.


(** Creating billing in p1 with a description of its own. *)
Lemma create_remote_then_local_witness :
  app_model.exists_ (registry w_empty) "billing-p1" "p1" = false
  /\ create "p1" (mkCreateData "billing" (Some "Invoices")) w_empty =
       (Returned
          (json_response
             (app_message
                (app_view.mkView "billing-p1" "p1" "Invoices" fn_billing)
                "App successfully created")
             200),
        mkWorld [app_model.mkApps "billing-p1" "p1" "Invoices"]
          (MemPlatform.mkState true [(fn_billing, [])])
          [Apps_exists_call "billing-p1" "p1";
           fn_apps_create_call "billing-p1";
           Apps_save_call (app_model.mkApps "billing-p1" "p1" "Invoices")]).
Proof.
  split; [reflexivity|].
  exact (create_remote_then_local w_empty "p1"
           (mkCreateData "billing" (Some "Invoices")) fn_billing
           (MemPlatform.mkState true [(fn_billing, [])])
           eq_refl eq_refl).
Defined.

(** Two names that differ at their 31st character only. *)
Lemma create_again_conflicts_witness :
  let w1 := snd (create "p1" long_one w_empty) in
  returned_status (create "p1" long_one w_empty) = Some 200
  /\ data_app_name long_two <> data_app_name long_one
  /\ create "p1" long_two w1 =
       (Returned
          (json_response
             (error_message
                "App a-very-long-application-name-v already exists")
             409),
        mkWorld (registry w1) (remote w1)
          (calls w1 ++
             [Apps_exists_call "a-very-long-application-name-v" "p1"])).
Proof.
  split; [reflexivity|]. split; [discriminate|].
  exact (create_again_conflicts w_empty
           (snd (create "p1" long_one w_empty)) "p1" long_one long_two
           (json_response
              (app_message
                 (app_view.mkView "a-very-long-application-name-v" "p1"
                    "App for project p1"
                    (fn.mkApp "a-very-long-application-name-v" []))
                 "App successfully created")
              200)
           eq_refl eq_refl eq_refl).
Defined.

(** Updating billing-p1 with a new description in the body: the remote
    app takes it, the view still shows the stored description. *)
Lemma update_remote_then_reread_witness :
  exists init stored,
    app_model.find_by (registry w_billing) "p1" (Some "billing-p1")
    = init ++ [stored]
    /\ update "p1" "billing-p1" [("description", "new")] w_billing =
         (Returned
            (json_response
               (app_message
                  (app_view.view
                     (app_view.mkAppView stored
                        (fn.mkApp "billing-p1" [("description", "new")])))
                  "App successfully updated")
               200),
          mkWorld [billing]
            (MemPlatform.mkState true
               [(fn.mkApp "billing-p1" [("description", "new")], [])])
            [Apps_exists_call "billing-p1" "p1";
             fn_apps_update_call "billing-p1" [("description", "new")];
             Apps_find_by_call "p1" (Some "billing-p1")]).
Proof.
  exact (update_remote_then_reread w_billing "p1" "billing-p1"
           [("description", "new")]
           (fn.mkApp "billing-p1" [("description", "new")])
           (MemPlatform.mkState true
              [(fn.mkApp "billing-p1" [("description", "new")], [])])
           eq_refl eq_refl).
Defined.

(** Deleting an app the platform has lost, and deleting an app whose
    routes cannot be listed. *)
Lemma delete_fetch_failure_keeps_both_witness :
  (fst (delete "p1" "billing-p1" w_orphan) =
     Returned (json_response (error_message "App billing-p1 not found") 404)
   /\ registry (snd (delete "p1" "billing-p1" w_orphan)) = [billing])
  /\ (fst (delete (fnclient := routes_down) "p1" "billing-p1" w_billing) =
        Returned
          (json_response (error_message "Cannot connect to host") 500)
      /\ registry (snd (delete (fnclient := routes_down)
                          "p1" "billing-p1" w_billing)) = [billing]
      /\ remote (snd (delete (fnclient := routes_down)
                        "p1" "billing-p1" w_billing)) = remote w_billing).
Proof.
  split.
  - pose proof (delete_fetch_failure_keeps_both w_orphan "p1" "billing-p1"
                  (MemPlatform.NotFound "billing-p1") eq_refl
                  (or_introl eq_refl)) as H.
    destruct H as [Hresp [Hreg _]]. split; [exact Hresp|exact Hreg].
  - pose proof (delete_fetch_failure_keeps_both (fnclient := routes_down)
                  w_billing "p1" "billing-p1"
                  MemPlatform.ConnectionError eq_refl
                  (or_intror
                     (ex_intro _ fn_billing (conj eq_refl eq_refl)))) as H.
    destruct H as [Hresp [Hreg [Hrem _]]].
    split; [exact Hresp|]. split; [exact Hreg|exact Hrem].
Defined.


(** Deleting billing-p1 leaves reports-p1 where it was. *)
Lemma delete_keeps_other_apps_witness :
  registry (snd (delete "p1" "billing-p1" w_two)) = [reports]
  /\ app_model.find_by (registry (snd (delete "p1" "billing-p1" w_two)))
       "p1" (Some "reports-p1")
     = [reports].
Proof.
  split; [reflexivity|].
  refine (delete_keeps_other_apps w_two "p1" "billing-p1" "p1" "reports-p1" _).
  intros E. discriminate E.
Defined.

(** A name of 31 characters in two projects. *)
Lemma long_name_drops_project_witness :
  create_app_name "p1" long_one = "a-very-long-application-name-v"
  /\ create_app_name "p1" long_one = create_app_name "p2" long_one.
Proof.
  refine (long_name_drops_project long_one "p1" "p2" _).
  cbn. lia.
Defined.

(** Two short requests under the same name. *)
Lemma short_names_do_not_collide_witness :
  create_app_name "p1" (mkCreateData "billing" None) = "billing-p1"
  /\ data_app_name (mkCreateData "billing" None)
     = data_app_name (mkCreateData "billing" (Some "Invoices")).
Proof.
  refine (short_names_do_not_collide (mkCreateData "billing" None)
            (mkCreateData "billing" (Some "Invoices")) "p1" _ _ eq_refl);
    cbn; lia.
Defined.
